(** * Claim-processor agent: routing core and graph wiring

    Shallow embedding of [src/unnamed/part_000] (the LangGraph agent:
    [shouldContinue], the graph [builder]) and of the Express entry point
    [src/claim-processor-agent/src/app.ts]. *)

From Stdlib Require Import String List Bool Arith Lia.
Import ListNotations.
Open Scope string_scope.
Open Scope list_scope.

(** ** Messages (LangChain [BaseMessage] and its subclasses) *)

(** A tool call as carried by [AIMessage.tool_calls]. *)
Record ToolCall := mkToolCall {
  tc_name : string;
  tc_args : list (string * string);
  tc_id : string
}.

(** [tool_calls?: ToolCall[]] is optional on an [AIMessage]: [None] is
    [undefined]. *)
Inductive BaseMessage :=
| HumanMessage (content : string)
| AIMessage (content : string) (tool_calls : option (list ToolCall))
| ToolMessage (content : string) (tool_call_id : string) (name : string)
              (status : string)
| SystemMessage (content : string).

(** [message._getType()] *)
Definition getType (m : BaseMessage) : string :=
  match m with
  | HumanMessage _ => "human"
  | AIMessage _ _ => "ai"
  | ToolMessage _ _ _ _ => "tool"
  | SystemMessage _ => "system"
  end.

Definition content (m : BaseMessage) : string :=
  match m with
  | HumanMessage c | AIMessage c _ | ToolMessage c _ _ _ | SystemMessage c => c
  end.

(** [(lastMessage as AIMessage).tool_calls]: absent on other message kinds. *)
Definition tool_calls_of (m : BaseMessage) : option (list ToolCall) :=
  match m with
  | AIMessage _ tcs => tcs
  | _ => None
  end.

(** Truthiness of [tool_calls?.length]: [undefined] and [0] are falsy. *)
Definition length_truthy (tcs : option (list ToolCall)) : bool :=
  match tcs with
  | None => false
  | Some l => negb (Nat.eqb (length l) 0)
  end.

(** [messages[messages.length - 1]]; [undefined] on an empty array. *)
Definition last_message (messages : list BaseMessage) : option BaseMessage :=
  nth_error messages (length messages - 1).

(** ** Results of JavaScript code that may throw *)

Inductive Result (A : Type) :=
| Ok (a : A)
| Throw (e : string).
Arguments Ok {A} a.
Arguments Throw {A} e.

(** ** The router [shouldContinue] *)

Definition END := "__end__".

(** Value returned to [addConditionalEdges]: [END] or an array of node
    names. *)
Inductive BranchResult :=
| BEnd
| BNodes (targets : list string).

(** The callback of [tool_calls.map]. *)
Definition route_tool_call (tc : ToolCall) : string :=
  if String.eqb (tc_name tc) "create_or_update_claim" then "prepare_claim_detail"
  else if String.eqb (tc_name tc) "approve_payment" then "execute_approve_payment"
  else "tools".

Definition shouldContinue (messages : list BaseMessage) : Result BranchResult :=
  match last_message messages with
  | None =>
      (* [lastMessage] is undefined: [lastMessage._getType()] raises *)
      Throw "TypeError: Cannot read properties of undefined (reading '_getType')"
  | Some lastMessage =>
      if negb (String.eqb (getType lastMessage) "ai")
         || negb (length_truthy (tool_calls_of lastMessage))
      then Ok BEnd
      else
        let tool_calls := tool_calls_of lastMessage in
        if negb (length_truthy tool_calls)
        then Throw "Expected tool_calls to be an array with at least one element"
        else match tool_calls with
             | Some tcs => Ok (BNodes (map route_tool_call tcs))
             | None => Throw "Expected tool_calls to be an array with at least one element"
             end
  end.

(** ** Graph wiring ([builder]) *)

(** Static edges and the conditional edge of [agent]:
    [addEdge("tools","agent")], [addEdge("prepare_claim_detail","tools")],
    [addEdge("execute_approve_payment","tools")] and
    [addConditionalEdges("agent", shouldContinue, ...)].  The branch of
    [agent] reads the state with the node's own writes applied. *)
Definition successors (node : string) (local_state : list BaseMessage)
  : Result (list string) :=
  if String.eqb node "agent" then
    match shouldContinue local_state with
    | Ok BEnd => Ok []
    | Ok (BNodes targets) => Ok targets
    | Throw e => Throw e
    end
  else if String.eqb node "tools" then Ok ["agent"]
  else if String.eqb node "prepare_claim_detail" then Ok ["tools"]
  else if String.eqb node "execute_approve_payment" then Ok ["tools"]
  else Throw ("unknown node " ++ node)%string.

(** The nodes added with [addNode], in the order in which the engine
    applies the writes of one superstep (by task path, i.e. node name).
    A node triggered several times in one superstep runs once. *)
Definition graph_nodes : list string :=
  ["agent"; "execute_approve_payment"; "prepare_claim_detail"; "tools"].

Definition schedule (triggered : list string) : list string :=
  filter (fun n => existsb (String.eqb n) triggered) graph_nodes.

(** Observable effects recorded while a run proceeds. *)
Inductive Event :=
| Superstep (active : list string)
| ToolInvoked (tc : ToolCall)
| GateApproved (node : string) (tc : ToolCall)
| GateRejected (node : string) (tc : ToolCall) (field : string).

(** Verdict of a validation gate on one proposed action. *)
Inductive GateVerdict :=
| Forward (enriched : ToolCall)
| Reject (field : string).

(** Outcome of [graph.invoke]: a finished run, a node or branch that threw,
    or the recursion limit reached with tasks still pending
    ([GraphRecursionError]).  Each carries the state persisted so far. *)
Inductive Outcome :=
| Done (st : list BaseMessage) (trace : list Event)
| Failed (e : string) (st : list BaseMessage) (trace : list Event)
| OutOfSteps (st : list BaseMessage) (trace : list Event).

Fixpoint last_ai_message (messages : list BaseMessage) : option (list ToolCall) :=
  match messages with
  | [] => None
  | m :: rest =>
      match last_ai_message rest with
      | Some tcs => Some tcs
      | None =>
          match m with
          | AIMessage _ tcs => Some (match tcs with Some l => l | None => [] end)
          | _ => None
          end
      end
  end.

Definition answered_ids (messages : list BaseMessage) : list string :=
  flat_map (fun m => match m with ToolMessage _ id _ _ => [id] | _ => [] end) messages.

(** The double-quote and newline characters. *)
Definition dquote : string := String (Ascii.ascii_of_nat 34) EmptyString.
Definition newline : string := String (Ascii.ascii_of_nat 10) EmptyString.

Section Graph.

(** The external collaborators: the chat model bound to [ALL_TOOLS], the
    text of [systemSetUpMessage()], and the executors of the tools of
    [ALL_TOOLS] looked up by name. *)
Variable model : list BaseMessage -> BaseMessage.
Variable systemSetUpMessage : string.
Variable tool_registry : string -> option (list (string * string) -> Result string).

(** Modelled from the spec: the rule sets of [validateClaimDetail] and
    [validateApprovalRequest] (files [validateClaimDetails.js] and
    [validateApprovalRules.js], not in the sources): pure functions of the
    history and the proposed action that forward it, possibly enriched, or
    reject it naming the field that failed. *)
Variable claim_detail_rule : list BaseMessage -> ToolCall -> GateVerdict.
Variable approval_rule : list BaseMessage -> ToolCall -> GateVerdict.

(** [callModel]: [model.invoke([systemMessage, ...messages])]. *)
Definition callModel (messages : list BaseMessage) : list BaseMessage :=
  [model (SystemMessage (systemSetUpMessage) :: messages)].

(** One call of LangGraph's [ToolNode.runTool]: the tool's output becomes a
    tool message (status "success" by default); an error, including the
    [Tool "<name>" not found.] raised for an unknown name, is caught and
    becomes the tool message [Error: <message>\n Please fix your mistakes.]
    with status "error". *)
Definition runTool (call : ToolCall) : BaseMessage * list Event :=
  let error_message (e : string) :=
    ToolMessage ("Error: " ++ e ++ newline ++ " Please fix your mistakes.")%string
                (tc_id call) (tc_name call) "error" in
  match tool_registry (tc_name call) with
  | None =>
      (error_message ("Tool " ++ dquote ++ tc_name call ++ dquote ++ " not found.")%string,
       [])
  | Some exec =>
      match exec (tc_args call) with
      | Ok out => (ToolMessage out (tc_id call) (tc_name call) "success", [ToolInvoked call])
      | Throw e => (error_message e, [ToolInvoked call])
      end
  end.

(** LangGraph's [ToolNode]: the tool calls of the latest AI message that no
    tool message answers yet are all executed, in order. *)
Definition toolNode (messages : list BaseMessage)
  : Result (list BaseMessage * list Event) :=
  match last_ai_message messages with
  | None => Throw "ToolNode only accepts AIMessages as input."
  | Some calls =>
      let answered := answered_ids messages in
      let pending :=
        filter (fun c => negb (existsb (String.eqb (tc_id c)) answered)) calls in
      let results := map runTool pending in
      Ok (map fst results, flat_map snd results)
  end.

(** Modelled from the spec: a validation gate node ([validateClaimDetail],
    [validateApprovalRequest]).  Every action of the latest AI message that
    carries the gate's tool name is judged by the gate's rule: a rejected
    action gets a tool-result message naming the failed field and is not
    executed; forwarded actions are re-emitted in an AI message for the
    [tools] node. *)
Definition gateNode (node tool : string)
  (rule : list BaseMessage -> ToolCall -> GateVerdict)
  (messages : list BaseMessage) : Result (list BaseMessage * list Event) :=
  match last_ai_message messages with
  | None => Ok ([], [])
  | Some calls =>
      let mine := filter (fun c => String.eqb (tc_name c) tool) calls in
      let verdicts := map (fun c => (c, rule messages c)) mine in
      let rejections :=
        flat_map (fun cv => match snd cv with
                            | Reject field =>
                                [ToolMessage ("Validation failed: " ++ field)%string
                                             (tc_id (fst cv)) (tc_name (fst cv)) "success"]
                            | Forward _ => []
                            end) verdicts in
      let forwarded :=
        flat_map (fun cv => match snd cv with
                            | Forward c' => [c']
                            | Reject _ => []
                            end) verdicts in
      let events :=
        map (fun cv => match snd cv with
                       | Forward c' => GateApproved node c'
                       | Reject field => GateRejected node (fst cv) field
                       end) verdicts in
      Ok (rejections ++ (match forwarded with
                         | [] => []
                         | _ => [AIMessage "" (Some forwarded)]
                         end), events)
  end.

Definition validateClaimDetail :=
  gateNode "prepare_claim_detail" "create_or_update_claim" claim_detail_rule.
Definition validateApprovalRequest :=
  gateNode "execute_approve_payment" "approve_payment" approval_rule.

(** The node functions registered with [addNode]. *)
Definition node_write (node : string) (messages : list BaseMessage)
  : Result (list BaseMessage * list Event) :=
  if String.eqb node "agent" then Ok (callModel messages, [])
  else if String.eqb node "tools" then toolNode messages
  else if String.eqb node "prepare_claim_detail" then validateClaimDetail messages
  else if String.eqb node "execute_approve_payment" then validateApprovalRequest messages
  else Throw ("unknown node " ++ node)%string.

(** One superstep: every active node reads the same snapshot; the writes
    (appended by the messages reducer) and the triggered nodes are
    collected in task order. *)
Fixpoint run_tasks (active : list string) (snapshot : list BaseMessage)
  : Result (list BaseMessage * list Event * list string) :=
  match active with
  | [] => Ok ([], [], [])
  | node :: rest =>
      match node_write node snapshot with
      | Throw e => Throw e
      | Ok (writes, events) =>
          match successors node (snapshot ++ writes) with
          | Throw e => Throw e
          | Ok next =>
              match run_tasks rest snapshot with
              | Throw e => Throw e
              | Ok (ws, evs, nexts) => Ok (writes ++ ws, events ++ evs, next ++ nexts)
              end
          end
      end
  end.

(** The Pregel loop: at most [limit] supersteps ([recursionLimit]); pending
    tasks after the last allowed superstep are a [GraphRecursionError]. *)
Fixpoint run (limit : nat) (active : list string) (st : list BaseMessage)
  (trace : list Event) : Outcome :=
  match active with
  | [] => Done st trace
  | _ :: _ =>
      match limit with
      | 0 => OutOfSteps st trace
      | S limit' =>
          match run_tasks active st with
          | Throw e => Failed e st trace
          | Ok (writes, events, next) =>
              run limit' (schedule next) (st ++ writes)
                  (trace ++ Superstep active :: events)
          end
      end
  end.

(** ** Entry point ([app.get('/api/chat')]) *)

(** The checkpoint store ([MemorySaver]): the message history per thread. *)
Definition Store := string -> list BaseMessage.

Definition store_put (s : Store) (thread_id : string) (st : list BaseMessage) : Store :=
  fun t => if String.eqb t thread_id then st else s t.

(** [const config = { configurable: { thread_id: "thread1" } }] *)
Definition config_thread_id := "thread1".
Definition recursionLimit := 15.

(** The handler: [graph.invoke({messages: [new HumanMessage(message)]},
    {recursionLimit: 15, ...config})], then the content of the last message
    of the result.  The error of a failed run propagates out of the
    handler; the store keeps what was persisted. *)
Definition chat (store : Store) (message : string) : Store * Result string :=
  let st0 := store config_thread_id ++ [HumanMessage message] in
  match run recursionLimit ["agent"] st0 [] with
  | Done st _ =>
      (store_put store config_thread_id st,
       Ok (match last_message st with Some m => content m | None => "" end))
  | Failed e st _ => (store_put store config_thread_id st, Throw e)
  | OutOfSteps st _ =>
      (store_put store config_thread_id st,
       Throw "GraphRecursionError: Recursion limit of 15 reached")
  end.

End Graph.

(** ** Concrete collaborators used to evaluate the model *)

Definition claim_call : ToolCall :=
  mkToolCall "create_or_update_claim" [("claimId", "123")] "call_claim".
Definition fraud_call : ToolCall := mkToolCall "fraud_check" [] "call_fraud".

(** A registry holding the five tools of [ALL_TOOLS], each answering "ok". *)
Definition demo_registry (name : string)
  : option (list (string * string) -> Result string) :=
  if existsb (String.eqb name)
       ["user_details"; "fraud_check"; "create_or_update_claim";
        "approve_payment"; "send_confirmation_email"]
  then Some (fun _ => Ok ("ok:" ++ name)%string) else None.

(** A gate rule that rejects every action. *)
Definition reject_all (_ : list BaseMessage) (_ : ToolCall) : GateVerdict :=
  Reject "claimant identity".

(** A gate rule that forwards every action unchanged. *)
Definition accept_all (_ : list BaseMessage) (c : ToolCall) : GateVerdict :=
  Forward c.

Definition has_tool_message (h : list BaseMessage) : bool :=
  existsb (fun m => String.eqb (getType m) "tool") h.

(** A Reasoner that first proposes a fraud check and a claim update in one
    turn, then answers. *)
Definition model_mixed (h : list BaseMessage) : BaseMessage :=
  if has_tool_message h then AIMessage "ok" None
  else AIMessage "" (Some [fraud_call; claim_call]).

(** Like [model_mixed], but it answers differently when its previous turn
    was already a plain answer. *)
Definition model_mixed_again (h : list BaseMessage) : BaseMessage :=
  match last_message h with
  | Some (AIMessage "ok" None) => AIMessage "again" None
  | _ => model_mixed h
  end.


(** A Reasoner that always retries the same claim update. *)
Definition model_retry (_ : list BaseMessage) : BaseMessage :=
  AIMessage "" (Some [claim_call]).

(** A Reasoner that answers with the number of user messages it has seen. *)
Fixpoint count_human (h : list BaseMessage) : nat :=
  match h with
  | [] => 0
  | HumanMessage _ :: rest => S (count_human rest)
  | _ :: rest => count_human rest
  end.

Definition model_count (h : list BaseMessage) : BaseMessage :=
  AIMessage (match count_human h with 1 => "1" | 2 => "2" | _ => "many" end) None.

Definition empty_store : Store := fun _ => [].

Definition trace_of (o : Outcome) : list Event :=
  match o with Done _ tr | Failed _ _ tr | OutOfSteps _ tr => tr end.

Definition state_of (o : Outcome) : list BaseMessage :=
  match o with Done st _ | Failed _ st _ | OutOfSteps st _ => st end.

Definition is_superstep (e : Event) : bool :=
  match e with Superstep _ => true | _ => false end.

Definition count_supersteps (tr : list Event) : nat :=
  length (filter is_superstep tr).

Definition is_ai (m : BaseMessage) : bool := String.eqb (getType m) "ai".

(** A rejection turn of a validation gate. *)
Definition is_rejection (m : BaseMessage) : bool :=
  match m with
  | ToolMessage c _ _ _ => String.prefix "Validation failed: " c
  | _ => false
  end.

(** The supersteps of one rejected claim-update retry. *)
Definition retry_steps : list Event :=
  [Superstep ["agent"]; Superstep ["prepare_claim_detail"]; Superstep ["tools"]].

(** Routing of one action as the spec words it. *)
Definition route_spec (tc : ToolCall) (target : string) : Prop :=
  (tc_name tc = "create_or_update_claim" /\ target = "prepare_claim_detail") \/
  (tc_name tc = "approve_payment" /\ target = "execute_approve_payment") \/
  (tc_name tc <> "create_or_update_claim" /\ tc_name tc <> "approve_payment" /\
   target = "tools").

(** ** Lemmas *)

Example shouldContinue_ex1 :
  shouldContinue [HumanMessage "hi";
                  AIMessage "" (Some [mkToolCall "fraud_check" [] "a";
                                      mkToolCall "create_or_update_claim" [] "b";
                                      mkToolCall "approve_payment" [] "c"])]
  = Ok (BNodes ["tools"; "prepare_claim_detail"; "execute_approve_payment"]).
Proof. reflexivity. Qed.

Example shouldContinue_ex2 :
  shouldContinue [HumanMessage "hi"; AIMessage "done" (Some [])] = Ok BEnd.
Proof. reflexivity. Qed.

Lemma last_message_app (h : list BaseMessage) (m : BaseMessage) :
  last_message (h ++ [m]) = Some m.
Proof.
  unfold last_message. rewrite length_app. simpl.
  replace (length h + 1 - 1) with (length h) by lia.
  rewrite nth_error_app2 by lia. rewrite Nat.sub_diag. reflexivity.
Qed.

Lemma last_message_cases (l : list BaseMessage) :
  l = [] \/ exists h m, l = h ++ [m].
Proof.
  destruct l as [|x l] using rev_ind; [left; reflexivity | right; eauto].
Qed.

Lemma last_ai_message_app (l l' : list BaseMessage) :
  last_ai_message (l ++ l') =
  match last_ai_message l' with
  | Some x => Some x
  | None => last_ai_message l
  end.
Proof.
  induction l as [|m l IH]; simpl.
  - destruct (last_ai_message l'); reflexivity.
  - rewrite IH. destruct (last_ai_message l'); reflexivity.
Qed.

Lemma answered_ids_app (l l' : list BaseMessage) :
  answered_ids (l ++ l') = answered_ids l ++ answered_ids l'.
Proof. unfold answered_ids. apply flat_map_app. Qed.

Lemma route_tool_call_spec (tc : ToolCall) : route_spec tc (route_tool_call tc).
Proof.
  unfold route_spec, route_tool_call.
  destruct (String.eqb_spec (tc_name tc) "create_or_update_claim") as [E1|E1];
    [left; auto|].
  destruct (String.eqb_spec (tc_name tc) "approve_payment") as [E2|E2];
    [right; left; auto | right; right; auto].
Qed.

Lemma shouldContinue_ai_nonempty (h : list BaseMessage) (c : string)
  (tc : ToolCall) (tcs : list ToolCall) :
  shouldContinue (h ++ [AIMessage c (Some (tc :: tcs))]) =
  Ok (BNodes (map route_tool_call (tc :: tcs))).
Proof. unfold shouldContinue. rewrite last_message_app. reflexivity. Qed.

(** ** The Router *)

(** C1: for an assistant turn carrying one or more Proposed Actions, the
    Router maps each action independently by its name:
    [create_or_update_claim] to the claim-detail gate, [approve_payment] to
    the approval gate, anything else to the generic [tools] node, one target
    per action, in the order of the actions. *)
Theorem shouldContinue_routes_each_action :
  forall (h : list BaseMessage) (c : string) (tcs : list ToolCall),
    tcs <> [] ->
    exists targets,
      shouldContinue (h ++ [AIMessage c (Some tcs)]) = Ok (BNodes targets) /\
      Forall2 route_spec tcs targets.
Proof.
  intros h c tcs Hne.
  destruct tcs as [|tc tcs]; [congruence|].
  exists (map route_tool_call (tc :: tcs)). split.
  - apply shouldContinue_ai_nonempty.
  - clear Hne. induction (tc :: tcs) as [|x l IH]; simpl; constructor;
      [apply route_tool_call_spec | exact IH].
Qed.

Lemma shouldContinue_routes_each_action_witness :
  [mkToolCall "fraud_check" [] "a"; claim_call] <> [] /\
  exists targets,
    shouldContinue ([HumanMessage "hi"] ++
                    [AIMessage "" (Some [mkToolCall "fraud_check" [] "a"; claim_call])])
    = Ok (BNodes targets) /\
    Forall2 route_spec [mkToolCall "fraud_check" [] "a"; claim_call] targets.
Proof.
  split; [discriminate|].
  apply shouldContinue_routes_each_action. discriminate.
Defined.

(** C9: the routing decision is a function of the latest turn alone:
    routing the same turn again, after any history, gives the same
    classification as routing that turn on its own. *)
Theorem shouldContinue_same_turn_same_route :
  forall (h : list BaseMessage) (t : BaseMessage),
    shouldContinue (h ++ [t]) = shouldContinue [t].
Proof.
  intros h t. unfold shouldContinue.
  rewrite last_message_app. reflexivity.
Qed.

(** C10: two conversation states whose last messages are equal get the
    same routing decision, whatever their earlier history. *)
Theorem shouldContinue_depends_on_last_message :
  forall s1 s2 : list BaseMessage,
    last_message s1 = last_message s2 ->
    shouldContinue s1 = shouldContinue s2.
Proof.
  intros s1 s2 E. unfold shouldContinue. rewrite E. reflexivity.
Qed.

Lemma shouldContinue_depends_on_last_message_witness :
  last_message [HumanMessage "a"; AIMessage "x" (Some [claim_call])] =
  last_message [HumanMessage "b"; ToolMessage "r" "id" "n" "success";
                AIMessage "x" (Some [claim_call])] /\
  shouldContinue [HumanMessage "a"; AIMessage "x" (Some [claim_call])] =
  shouldContinue [HumanMessage "b"; ToolMessage "r" "id" "n" "success";
                  AIMessage "x" (Some [claim_call])].
Proof.
  split; [reflexivity|].
  apply shouldContinue_depends_on_last_message. reflexivity.
Defined.

(** C6 (counterexample): an assistant turn whose tool-call payload is
    missing ([tool_calls] undefined) ends the run silently: the Router
    returns [END], no error. *)
Lemma shouldContinue_missing_payload_ends :
  shouldContinue [HumanMessage "hi"; AIMessage "" None] = Ok BEnd /\
  forall e, shouldContinue [HumanMessage "hi"; AIMessage "" None] <> Throw e.
Proof. split; [reflexivity | intros e; discriminate]. Qed.

(** C6 (amended): on a non-empty history the Router never raises: a last
    message that is not an AI message, or whose [tool_calls] is absent or
    empty, yields [END]; the "Expected tool_calls" error is unreachable. *)
Theorem shouldContinue_never_throws :
  forall (h : list BaseMessage) (m : BaseMessage),
    (forall e, shouldContinue (h ++ [m]) <> Throw e) /\
    (length_truthy (tool_calls_of m) = false -> shouldContinue (h ++ [m]) = Ok BEnd).
Proof.
  intros h m. unfold shouldContinue. rewrite last_message_app.
  split.
  - intros e.
    destruct (negb (getType m =? "ai") || negb (length_truthy (tool_calls_of m)))
      eqn:G; [discriminate|].
    apply orb_false_iff in G as [_ G].
    rewrite G. simpl.
    destruct (tool_calls_of m); discriminate.
  - intros G. rewrite G. rewrite orb_true_r. reflexivity.
Qed.

Lemma shouldContinue_never_throws_witness :
  length_truthy (tool_calls_of (AIMessage "" (Some []))) = false /\
  shouldContinue ([HumanMessage "hi"] ++ [AIMessage "" (Some [])]) = Ok BEnd.
Proof.
  split; [reflexivity|].
  apply (proj2 (shouldContinue_never_throws [HumanMessage "hi"] (AIMessage "" (Some [])))).
  reflexivity.
Defined.


(** ** Graph wiring *)

(** C4: every node other than the Reasoner has a fixed, non-terminating
    successor: [tools] returns to [agent], and both validation gates go to
    [tools] (hence back to [agent]); only [agent]'s conditional edge can
    reach [END]. *)
Theorem gate_and_tool_nodes_loop_back :
  forall st : list BaseMessage,
    successors "tools" st = Ok ["agent"] /\
    successors "prepare_claim_detail" st = Ok ["tools"] /\
    successors "execute_approve_payment" st = Ok ["tools"] /\
    (forall n, In n graph_nodes -> n <> "agent" ->
       exists next, successors n st = Ok [next] /\ In next graph_nodes /\
         forall st', successors next st' = Ok ["agent"] \/ next = "agent").
Proof.
  intros st. repeat split; try reflexivity.
  intros n Hin Hne. simpl in Hin.
  destruct Hin as [<-|[<-|[<-|[<-|[]]]]].
  - congruence.
  - exists "tools". split; [reflexivity|split; [simpl; tauto|]].
    intros st'. left. reflexivity.
  - exists "tools". split; [reflexivity|split; [simpl; tauto|]].
    intros st'. left. reflexivity.
  - exists "agent". split; [reflexivity|split; [simpl; tauto|]].
    intros st'. right. reflexivity.
Qed.

(** ** Runs of the graph *)

(** C2: a turn proposing [fraud_check] and [create_or_update_claim]
    together is routed to [tools] and to the claim-detail gate in the same
    superstep; the [tools] node executes every call of the turn, so the
    claim executor is invoked although the gate rejects the action and
    never approves it. *)
Theorem claim_executor_runs_beside_rejecting_gate :
  let o := run model_mixed "sys" demo_registry reject_all reject_all
               recursionLimit ["agent"] [HumanMessage "I was in a car accident"] [] in
  shouldContinue [HumanMessage "I was in a car accident";
                  AIMessage "" (Some [fraud_call; claim_call])]
    = Ok (BNodes ["tools"; "prepare_claim_detail"]) /\
  firstn 5 (trace_of o) =
    [Superstep ["agent"];
     Superstep ["prepare_claim_detail"; "tools"];
     GateRejected "prepare_claim_detail" claim_call "claimant identity";
     ToolInvoked fraud_call;
     ToolInvoked claim_call] /\
  (forall c, ~ In (GateApproved "prepare_claim_detail" c) (trace_of o)).
Proof.
  intros o. split; [reflexivity|].
  assert (T : trace_of o =
    [Superstep ["agent"];
     Superstep ["prepare_claim_detail"; "tools"];
     GateRejected "prepare_claim_detail" claim_call "claimant identity";
     ToolInvoked fraud_call;
     ToolInvoked claim_call;
     Superstep ["agent"; "tools"];
     Superstep ["agent"]]) by (vm_compute; reflexivity).
  rewrite T. split; [reflexivity|].
  intros c H. simpl in H. intuition discriminate.
Qed.

(** C3: after the same kind of turn, the Reasoner's plain answer "ok"
    (no Proposed Actions, routed to [END]) does not end the run: the
    [tools] node, which ran in the same superstep, triggers the Reasoner
    again, and the run returns the content of that later turn. *)
Theorem zero_action_turn_not_returned_after_fanout :
  let r := chat model_mixed_again "sys" demo_registry reject_all reject_all
               empty_store "I was in a car accident" in
  shouldContinue [HumanMessage "x"; AIMessage "ok" None] = Ok BEnd /\
  In (AIMessage "ok" None) (fst r config_thread_id) /\
  snd r = Ok "again".
Proof.
  intros r.
  assert (E : r =
    (store_put empty_store config_thread_id
       [HumanMessage "I was in a car accident";
        AIMessage "" (Some [fraud_call; claim_call]);
        ToolMessage "Validation failed: claimant identity" "call_claim"
                    "create_or_update_claim" "success";
        ToolMessage "ok:fraud_check" "call_fraud" "fraud_check" "success";
        ToolMessage "ok:create_or_update_claim" "call_claim" "create_or_update_claim"
                    "success";
        AIMessage "ok" None;
        AIMessage "again" None], Ok "again")) by (vm_compute; reflexivity).
  rewrite E. split; [reflexivity|]. split; [|reflexivity].
  simpl. tauto.
Qed.

(** ** Step bound *)

Lemma count_supersteps_app (l1 l2 : list Event) :
  count_supersteps (l1 ++ l2) = count_supersteps l1 + count_supersteps l2.
Proof. unfold count_supersteps. rewrite filter_app, length_app. reflexivity. Qed.

Lemma filter_superstep_map {A : Type} (f : A -> Event) (l : list A) :
  (forall a, is_superstep (f a) = false) -> filter is_superstep (map f l) = [].
Proof. intros Hf. induction l as [|a l IH]; simpl; [reflexivity|]. rewrite Hf. exact IH. Qed.

Lemma filter_superstep_flat_map {A : Type} (g : A -> list Event) (l : list A) :
  (forall a, filter is_superstep (g a) = []) ->
  filter is_superstep (flat_map g l) = [].
Proof.
  intros Hg. induction l as [|a l IH]; simpl; [reflexivity|].
  rewrite filter_app, Hg, IH. reflexivity.
Qed.

Lemma run_S model sys reg rule1 rule2 limit a active st tr :
  run model sys reg rule1 rule2 (S limit) (a :: active) st tr =
  match run_tasks model sys reg rule1 rule2 (a :: active) st with
  | Throw e => Failed e st tr
  | Ok (writes, events, next) =>
      run model sys reg rule1 rule2 limit (schedule next) (st ++ writes)
          (tr ++ Superstep (a :: active) :: events)
  end.
Proof. reflexivity. Qed.

Section StepBound.

Variable model : list BaseMessage -> BaseMessage.
Variable sys : string.
Variable reg : string -> option (list (string * string) -> Result string).
Variables rule1 rule2 : list BaseMessage -> ToolCall -> GateVerdict.

Lemma runTools_no_superstep (calls : list ToolCall) :
  filter is_superstep (flat_map snd (map (runTool reg) calls)) = [].
Proof.
  induction calls as [|c calls IH]; simpl; [reflexivity|].
  rewrite filter_app, IH, app_nil_r.
  unfold runTool. destruct (reg (tc_name c)) as [exec|]; [|reflexivity].
  destruct (exec (tc_args c)); reflexivity.
Qed.

Lemma gateNode_no_superstep node tool rule s w ev :
  gateNode node tool rule s = Ok (w, ev) -> filter is_superstep ev = [].
Proof.
  unfold gateNode. destruct (last_ai_message s); intros E; inversion E; subst;
    [|reflexivity].
  apply filter_superstep_map. intros [c v]. destruct v; reflexivity.
Qed.

Lemma node_write_no_superstep n s w ev :
  node_write model sys reg rule1 rule2 n s = Ok (w, ev) ->
  filter is_superstep ev = [].
Proof.
  unfold node_write.
  destruct (String.eqb n "agent");
    [intros E; inversion E; reflexivity|].
  destruct (String.eqb n "tools").
  { unfold toolNode. destruct (last_ai_message s); intros E; inversion E; subst.
    apply runTools_no_superstep. }
  destruct (String.eqb n "prepare_claim_detail"); [apply gateNode_no_superstep|].
  destruct (String.eqb n "execute_approve_payment"); [apply gateNode_no_superstep|].
  intros E; discriminate.
Qed.

Lemma run_tasks_no_superstep active s w ev nx :
  run_tasks model sys reg rule1 rule2 active s = Ok (w, ev, nx) ->
  filter is_superstep ev = [].
Proof.
  revert w ev nx.
  induction active as [|n active IH]; simpl; intros w ev nx E.
  - inversion E. reflexivity.
  - destruct (node_write model sys reg rule1 rule2 n s) as [[w1 ev1]|] eqn:N;
      [|discriminate].
    destruct (successors n (s ++ w1)); [|discriminate].
    destruct (run_tasks model sys reg rule1 rule2 active s) as [[[ws evs] nxs]|];
      [|discriminate].
    inversion E; subst.
    rewrite filter_app, (node_write_no_superstep _ _ _ _ N), (IH _ _ _ eq_refl).
    reflexivity.
Qed.

Lemma run_supersteps_bounded limit :
  forall active st tr,
    count_supersteps (trace_of (run model sys reg rule1 rule2 limit active st tr))
    <= count_supersteps tr + limit.
Proof.
  induction limit as [|limit IH]; intros active st tr;
    destruct active as [|a active]; try (simpl; lia).
  rewrite run_S.
  destruct (run_tasks model sys reg rule1 rule2 (a :: active) st)
    as [[[w ev] nx]|] eqn:E; [|simpl; lia].
  specialize (IH (schedule nx) (st ++ w) (tr ++ Superstep (a :: active) :: ev)).
  rewrite count_supersteps_app in IH.
  assert (Hev : count_supersteps (Superstep (a :: active) :: ev) = 1).
  { unfold count_supersteps. simpl.
    rewrite (run_tasks_no_superstep _ _ _ _ _ E). reflexivity. }
  lia.
Qed.

End StepBound.


(** C7 (counterexample): a Reasoner that keeps retrying a claim update the
    gate rejects is stopped by the recursion limit of 15 after only 5
    rejection turns: the limit counts supersteps, and each retry takes
    three ([agent], the gate, [tools]). *)
Lemma retry_stops_after_five_rejections :
  let r := chat model_retry "sys" demo_registry reject_all reject_all
               empty_store "please file my claim" in
  snd r = Throw "GraphRecursionError: Recursion limit of 15 reached" /\
  length (filter (fun m => String.eqb (getType m) "tool") (fst r config_thread_id)) = 5 /\
  5 <> recursionLimit.
Proof. vm_compute. split; [reflexivity|split; [reflexivity|discriminate]]. Qed.

(** ** Entry point *)

(** C8 (counterexample): the handler takes no thread id; two requests
    share the conversation of "thread1", so the second request's answer
    depends on the first one: a Reasoner counting user messages answers
    "2" instead of the "1" it gives on a fresh conversation. *)
Lemma chat_requests_share_thread :
  let s1 := fst (chat model_count "sys" demo_registry reject_all reject_all
                      empty_store "first claim") in
  snd (chat model_count "sys" demo_registry reject_all reject_all s1 "second claim")
    = Ok "2" /\
  snd (chat model_count "sys" demo_registry reject_all reject_all
            empty_store "second claim") = Ok "1".
Proof. vm_compute. split; reflexivity. Qed.

(** C8 (amended): the handler's answer depends only on the user message
    and on the history stored under the fixed thread id "thread1", and it
    writes back only that thread; on a finished run it returns the content
    of the last message. *)
Theorem chat_uses_fixed_thread :
  forall model sys reg rule1 rule2 (store1 store2 : Store) message,
    store1 config_thread_id = store2 config_thread_id ->
    snd (chat model sys reg rule1 rule2 store1 message) =
      snd (chat model sys reg rule1 rule2 store2 message) /\
    (forall t, t <> config_thread_id ->
       fst (chat model sys reg rule1 rule2 store1 message) t = store1 t) /\
    (forall st tr,
       run model sys reg rule1 rule2 recursionLimit ["agent"]
           (store1 config_thread_id ++ [HumanMessage message]) [] = Done st tr ->
       snd (chat model sys reg rule1 rule2 store1 message) =
         Ok (match last_message st with Some m => content m | None => "" end)).
Proof.
  intros model sys reg rule1 rule2 store1 store2 message Eq.
  split; [|split].
  - unfold chat. rewrite Eq.
    destruct (run model sys reg rule1 rule2 recursionLimit ["agent"]
                  (store2 config_thread_id ++ [HumanMessage message]) []);
      reflexivity.
  - intros t Ht. unfold chat, store_put.
    apply String.eqb_neq in Ht.
    destruct (run model sys reg rule1 rule2 recursionLimit ["agent"]
                  (store1 config_thread_id ++ [HumanMessage message]) []);
      simpl; rewrite Ht; reflexivity.
  - intros st tr E. unfold chat. rewrite E. reflexivity.
Qed.

Lemma chat_uses_fixed_thread_witness :
  let s2 := store_put empty_store "thread2" [HumanMessage "other"] in
  s2 config_thread_id = empty_store config_thread_id /\
  snd (chat model_count "sys" demo_registry reject_all reject_all s2 "hello") =
    snd (chat model_count "sys" demo_registry reject_all reject_all empty_store "hello").
Proof.
  intros s2.
  assert (E : s2 config_thread_id = empty_store config_thread_id) by reflexivity.
  split; [exact E|].
  exact (proj1 (chat_uses_fixed_thread model_count "sys" demo_registry reject_all
                  reject_all s2 empty_store "hello" E)).
Defined.

(** ** Further properties of the Router *)

Lemma route_tool_call_eq_tools (tc : ToolCall) :
  route_tool_call tc = "tools" <->
  tc_name tc <> "create_or_update_claim" /\ tc_name tc <> "approve_payment".
Proof.
  unfold route_tool_call.
  destruct (String.eqb_spec (tc_name tc) "create_or_update_claim");
    [split; [discriminate | tauto]|].
  destruct (String.eqb_spec (tc_name tc) "approve_payment");
    [split; [discriminate | tauto]|].
  tauto.
Qed.

Lemma route_tool_call_eq_prepare (tc : ToolCall) :
  route_tool_call tc = "prepare_claim_detail" <-> tc_name tc = "create_or_update_claim".
Proof.
  unfold route_tool_call.
  destruct (String.eqb_spec (tc_name tc) "create_or_update_claim"); [tauto|].
  destruct (String.eqb_spec (tc_name tc) "approve_payment");
    split; (discriminate || tauto).
Qed.

Lemma route_tool_call_eq_approve (tc : ToolCall) :
  route_tool_call tc = "execute_approve_payment" <-> tc_name tc = "approve_payment".
Proof.
  unfold route_tool_call.
  destruct (String.eqb_spec (tc_name tc) "create_or_update_claim") as [E|];
    [rewrite E; split; discriminate|].
  destruct (String.eqb_spec (tc_name tc) "approve_payment"); [tauto|].
  split; (discriminate || tauto).
Qed.

Lemma route_tool_call_in_nodes (tc : ToolCall) :
  In (route_tool_call tc) ["tools"; "prepare_claim_detail"; "execute_approve_payment"].
Proof.
  unfold route_tool_call.
  destruct (String.eqb (tc_name tc) "create_or_update_claim"); [simpl; tauto|].
  destruct (String.eqb (tc_name tc) "approve_payment"); simpl; tauto.
Qed.

Lemma shouldContinue_BNodes_inv (msgs : list BaseMessage) (targets : list string) :
  shouldContinue msgs = Ok (BNodes targets) ->
  exists h c tcs, msgs = h ++ [AIMessage c (Some tcs)] /\ tcs <> [] /\
                  targets = map route_tool_call tcs.
Proof.
  intros E.
  destruct (last_message_cases msgs) as [->|(h & m & ->)]; [discriminate|].
  unfold shouldContinue in E. rewrite last_message_app in E.
  destruct m as [c|c [tcs|]|c i n st|c]; simpl in E; try discriminate.
  destruct tcs as [|tc tcs]; simpl in E; [discriminate|].
  inversion E; subst. exists h, c, (tc :: tcs). repeat split; congruence.
Qed.

(** Every node the Router returns is one of the three declared in
    [addConditionalEdges] besides [END], and a routed turn never yields an
    empty list of targets. *)
Theorem shouldContinue_targets_declared :
  forall (msgs : list BaseMessage) (targets : list string),
    shouldContinue msgs = Ok (BNodes targets) ->
    targets <> [] /\
    Forall (fun t => In t ["tools"; "prepare_claim_detail"; "execute_approve_payment"])
           targets.
Proof.
  intros msgs targets E.
  destruct (shouldContinue_BNodes_inv msgs targets E) as (h & c & tcs & _ & Hne & ->).
  split.
  - destruct tcs; [congruence | discriminate].
  - apply Forall_forall. intros t Ht. apply in_map_iff in Ht as (tc & <- & _).
    apply route_tool_call_in_nodes.
Qed.

Lemma shouldContinue_targets_declared_witness :
  shouldContinue [HumanMessage "hi"; AIMessage "" (Some [fraud_call; claim_call])] =
    Ok (BNodes ["tools"; "prepare_claim_detail"]) /\
  ["tools"; "prepare_claim_detail"] <> [] /\
  Forall (fun t => In t ["tools"; "prepare_claim_detail"; "execute_approve_payment"])
         ["tools"; "prepare_claim_detail"].
Proof.
  assert (E : shouldContinue [HumanMessage "hi"; AIMessage "" (Some [fraud_call; claim_call])] =
                Ok (BNodes ["tools"; "prepare_claim_detail"])) by reflexivity.
  split; [exact E|].
  exact (shouldContinue_targets_declared _ _ E).
Defined.

(** A routed turn reaches the generic [tools] node exactly when one of its
    actions is neither [create_or_update_claim] nor [approve_payment]; it
    reaches each gate exactly when one of its actions carries that gate's
    tool name. *)
Theorem shouldContinue_target_iff_action :
  forall (msgs : list BaseMessage) (c : string) (tcs : list ToolCall)
         (targets : list string),
    shouldContinue (msgs ++ [AIMessage c (Some tcs)]) = Ok (BNodes targets) ->
    (In "tools" targets <->
       exists tc, In tc tcs /\ tc_name tc <> "create_or_update_claim" /\
                  tc_name tc <> "approve_payment") /\
    (In "prepare_claim_detail" targets <->
       exists tc, In tc tcs /\ tc_name tc = "create_or_update_claim") /\
    (In "execute_approve_payment" targets <->
       exists tc, In tc tcs /\ tc_name tc = "approve_payment").
Proof.
  intros msgs c tcs targets E.
  assert (Ht : targets = map route_tool_call tcs).
  { destruct tcs as [|tc tcs].
    - unfold shouldContinue in E. rewrite last_message_app in E. discriminate.
    - rewrite shouldContinue_ai_nonempty in E. inversion E. reflexivity. }
  subst targets. repeat split.
  - intros H. apply in_map_iff in H as (tc & Hr & Hin).
    apply route_tool_call_eq_tools in Hr. exists tc. tauto.
  - intros (tc & Hin & Hn). apply in_map_iff. exists tc.
    split; [apply route_tool_call_eq_tools; exact Hn | exact Hin].
  - intros H. apply in_map_iff in H as (tc & Hr & Hin).
    apply route_tool_call_eq_prepare in Hr. exists tc. tauto.
  - intros (tc & Hin & Hn). apply in_map_iff. exists tc.
    split; [apply route_tool_call_eq_prepare; exact Hn | exact Hin].
  - intros H. apply in_map_iff in H as (tc & Hr & Hin).
    apply route_tool_call_eq_approve in Hr. exists tc. tauto.
  - intros (tc & Hin & Hn). apply in_map_iff. exists tc.
    split; [apply route_tool_call_eq_approve; exact Hn | exact Hin].
Qed.

Lemma shouldContinue_target_iff_action_witness :
  shouldContinue ([HumanMessage "hi"] ++ [AIMessage "" (Some [claim_call])]) =
    Ok (BNodes ["prepare_claim_detail"]) /\
  (In "tools" ["prepare_claim_detail"] <->
     exists tc, In tc [claim_call] /\ tc_name tc <> "create_or_update_claim" /\
                tc_name tc <> "approve_payment").
Proof.
  assert (E : shouldContinue ([HumanMessage "hi"] ++ [AIMessage "" (Some [claim_call])]) =
                Ok (BNodes ["prepare_claim_detail"])) by reflexivity.
  split; [exact E|].
  exact (proj1 (shouldContinue_target_iff_action _ _ _ _ E)).
Defined.

(** The Router reads only the names of the proposed actions: their
    arguments and ids, the text of the turn and the earlier history do not
    change its decision. *)
Theorem shouldContinue_ignores_arguments :
  forall (h1 h2 : list BaseMessage) (c1 c2 : string) (tcs1 tcs2 : list ToolCall),
    map tc_name tcs1 = map tc_name tcs2 ->
    shouldContinue (h1 ++ [AIMessage c1 (Some tcs1)]) =
    shouldContinue (h2 ++ [AIMessage c2 (Some tcs2)]).
Proof.
  intros h1 h2 c1 c2 tcs1 tcs2 Hn.
  assert (Hr : map route_tool_call tcs1 = map route_tool_call tcs2).
  { revert tcs2 Hn. induction tcs1 as [|a l IH]; intros [|b l'] Hn;
      simpl in Hn; try discriminate; [reflexivity|].
    inversion Hn as [[Hab Hl]]. simpl. f_equal; [|apply IH; exact Hl].
    unfold route_tool_call. rewrite Hab. reflexivity. }
  destruct tcs1 as [|a l], tcs2 as [|b l']; simpl in Hn; try discriminate.
  - unfold shouldContinue. rewrite !last_message_app. reflexivity.
  - rewrite !shouldContinue_ai_nonempty. rewrite Hr. reflexivity.
Qed.

Lemma shouldContinue_ignores_arguments_witness :
  map tc_name [claim_call] = map tc_name [mkToolCall "create_or_update_claim" [] "other"] /\
  shouldContinue ([HumanMessage "a"] ++ [AIMessage "x" (Some [claim_call])]) =
  shouldContinue ([] ++ [AIMessage "y" (Some [mkToolCall "create_or_update_claim" [] "other"])]).
Proof.
  assert (E : map tc_name [claim_call] =
              map tc_name [mkToolCall "create_or_update_claim" [] "other"]) by reflexivity.
  split; [exact E|].
  exact (shouldContinue_ignores_arguments _ _ _ _ _ _ E).
Defined.

(** ** Further properties of runs and of the entry point *)

Lemma schedule_incl (nx : list string) : incl (schedule nx) graph_nodes.
Proof. intros n Hn. unfold schedule in Hn. apply filter_In in Hn. tauto. Qed.

Lemma schedule_NoDup (nx : list string) : NoDup (schedule nx).
Proof.
  unfold schedule. apply NoDup_filter.
  repeat constructor; simpl; intuition discriminate.
Qed.

Lemma schedule_nonempty (g : string) (nx : list string) :
  In g graph_nodes -> In g nx -> schedule nx <> [].
Proof.
  intros Hg Hn E.
  assert (H : In g (schedule nx)).
  { unfold schedule. apply filter_In. split; [exact Hg|].
    apply existsb_exists. exists g. split; [exact Hn | apply String.eqb_refl]. }
  rewrite E in H. exact H.
Qed.

Lemma only_agent_singleton (l : list string) :
  NoDup l -> (forall n, In n l -> n = "agent") -> l <> [] -> l = ["agent"].
Proof.
  intros Hd Ha Hne.
  destruct l as [|a [|b l]]; [congruence| |].
  - rewrite (Ha a); simpl; auto.
  - exfalso. inversion Hd as [|x y Hnin Hd']; subst.
    apply Hnin. rewrite (Ha a), (Ha b); simpl; auto.
Qed.

Lemma shouldContinue_end_no_tool_calls (h : list BaseMessage) (m : BaseMessage) :
  shouldContinue (h ++ [m]) = Ok BEnd -> length_truthy (tool_calls_of m) = false.
Proof.
  unfold shouldContinue. rewrite last_message_app.
  destruct m as [c|c [[|tc tcs]|]|c i n st|c]; simpl; try reflexivity.
  discriminate.
Qed.

Lemma run_nil model sys reg rule1 rule2 limit st tr :
  run model sys reg rule1 rule2 limit [] st tr = Done st tr.
Proof. destruct limit; reflexivity. Qed.

Section Completion.

Variable model : list BaseMessage -> BaseMessage.
Variable sys : string.
Variable reg : string -> option (list (string * string) -> Result string).
Variables rule1 rule2 : list BaseMessage -> ToolCall -> GateVerdict.

(** A node other than [agent] always triggers a node of the graph. *)
Lemma run_tasks_non_agent_triggers active st w ev nx n :
  run_tasks model sys reg rule1 rule2 active st = Ok (w, ev, nx) ->
  In n active -> In n graph_nodes -> n <> "agent" ->
  exists g, In g graph_nodes /\ In g nx.
Proof.
  revert w ev nx.
  induction active as [|a active IH]; simpl; intros w ev nx E Hin Hg Hna; [tauto|].
  destruct (node_write model sys reg rule1 rule2 a st) as [[w1 ev1]|]; [|discriminate].
  destruct (successors a (st ++ w1)) as [next|] eqn:S; [|discriminate].
  destruct (run_tasks model sys reg rule1 rule2 active st) as [[[ws evs] nxs]|];
    [|discriminate].
  inversion E; subst.
  destruct Hin as [<-|Hin].
  - simpl in Hg. destruct Hg as [<-|[<-|[<-|[<-|[]]]]]; [congruence| | |];
      unfold successors in S; simpl in S; inversion S; subst.
    + exists "tools". simpl. tauto.
    + exists "tools". simpl. tauto.
    + exists "agent". simpl. tauto.
  - destruct (IH _ _ _ eq_refl Hin Hg Hna) as (g & Hg' & Hn).
    exists g. split; [exact Hg'|]. apply in_or_app. right. exact Hn.
Qed.

Lemma run_done_plain_turn limit :
  forall active st tr st' tr',
    incl active graph_nodes -> NoDup active -> active <> [] ->
    run model sys reg rule1 rule2 limit active st tr = Done st' tr' ->
    exists h m, st' = h ++ [m] /\ m = model (SystemMessage sys :: h) /\
                length_truthy (tool_calls_of m) = false.
Proof.
  induction limit as [|limit IH]; intros active st tr st' tr' Hi Hd Hne E;
    (destruct active as [|a active]; [congruence|]); [discriminate|].
  rewrite run_S in E.
  destruct (run_tasks model sys reg rule1 rule2 (a :: active) st)
    as [[[w ev] nx]|] eqn:T; [|discriminate].
  destruct (schedule nx) as [|s ss] eqn:Sc.
  - rewrite run_nil in E. inversion E; subst.
    assert (Ha : a :: active = ["agent"]).
    { apply only_agent_singleton; [exact Hd| |discriminate].
      intros n Hn. destruct (String.eqb_spec n "agent") as [|Hna]; [assumption|].
      exfalso.
      destruct (run_tasks_non_agent_triggers _ _ _ _ _ n T Hn (Hi n Hn) Hna)
        as (g & Hg & Hgn).
      exact (schedule_nonempty g nx Hg Hgn Sc). }
    rewrite Ha in T. simpl in T.
    unfold successors in T. simpl in T. unfold callModel in T.
    destruct (shouldContinue (st ++ [model (SystemMessage sys :: st)]))
      as [[|targets]|e] eqn:SC; try discriminate.
    + inversion T; subst.
      exists st, (model (SystemMessage sys :: st)). repeat split.
      exact (shouldContinue_end_no_tool_calls _ _ SC).
    + exfalso. inversion T; subst.
      destruct (shouldContinue_targets_declared _ _ SC) as [Hne' Hall].
      destruct targets as [|t ts]; [congruence|].
      inversion Hall as [|x y Ht _]; subst.
      apply (schedule_nonempty t (t :: ts ++ [])); [|simpl; tauto|exact Sc].
      simpl in Ht |- *. tauto.
  - rewrite <- Sc in E.
    apply (IH (schedule nx) (st ++ w) (tr ++ Superstep (a :: active) :: ev) st' tr');
      try assumption.
    + apply schedule_incl.
    + apply schedule_NoDup.
    + rewrite Sc. discriminate.
Qed.

End Completion.

(** Every successful answer of the handler is the content of a turn the
    Reasoner produced from the stored history, a turn that carries no tool
    calls and is the last message stored for "thread1": a run that
    completes normally never ends on a tool result, a gate's output or a
    turn with pending tool calls. *)
Theorem chat_reply_is_plain_reasoner_turn :
  forall model sys reg rule1 rule2 (store : Store) message reply,
    snd (chat model sys reg rule1 rule2 store message) = Ok reply ->
    exists h m,
      fst (chat model sys reg rule1 rule2 store message) config_thread_id = h ++ [m] /\
      m = model (SystemMessage sys :: h) /\
      length_truthy (tool_calls_of m) = false /\
      content m = reply.
Proof.
  intros model sys reg rule1 rule2 store message reply.
  unfold chat.
  destruct (run model sys reg rule1 rule2 recursionLimit ["agent"]
              (store config_thread_id ++ [HumanMessage message]) []) eqn:R;
    cbn [snd]; intros E; try discriminate.
  assert (Hincl : incl ["agent"] graph_nodes).
  { intros n [<-|[]]. simpl. tauto. }
  assert (Hnd : NoDup ["agent"]) by (constructor; [simpl; tauto | constructor]).
  destruct (run_done_plain_turn model sys reg rule1 rule2 recursionLimit ["agent"] _ _ _ _
              Hincl Hnd ltac:(discriminate) R) as (h & m & -> & Hm & Ht).
  exists h, m. cbn [fst]. unfold store_put. rewrite String.eqb_refl.
  repeat split; try assumption.
  rewrite last_message_app in E. inversion E. reflexivity.
Qed.

Lemma chat_reply_is_plain_reasoner_turn_witness :
  snd (chat model_count "sys" demo_registry reject_all reject_all empty_store "hello") = Ok "1" /\
  exists h m,
    fst (chat model_count "sys" demo_registry reject_all reject_all empty_store "hello")
        config_thread_id = h ++ [m] /\
    m = model_count (SystemMessage "sys" :: h) /\
    length_truthy (tool_calls_of m) = false /\
    content m = "1".
Proof.
  assert (E : snd (chat model_count "sys" demo_registry reject_all reject_all
                        empty_store "hello") = Ok "1") by (vm_compute; reflexivity).
  split; [exact E|].
  exact (chat_reply_is_plain_reasoner_turn _ _ _ _ _ _ _ _ E).
Defined.

(** ** Unknown actions *)

Lemma existsb_all_same (g x : string) (l : list string) :
  Forall (fun y => y = x) l ->
  existsb (String.eqb g) l = (String.eqb g x && negb (Nat.eqb (length l) 0)).
Proof.
  induction l as [|y l IH]; intros Hf; simpl; [rewrite andb_false_r; reflexivity|].
  inversion Hf; subst. rewrite IH by assumption.
  destruct (String.eqb g x); reflexivity.
Qed.

Lemma schedule_all_same (x : string) (l : list string) :
  In x graph_nodes -> Forall (fun y => y = x) l -> l <> [] -> schedule l = [x].
Proof.
  intros Hx Hf Hne. unfold schedule, graph_nodes. cbn [filter].
  rewrite !(existsb_all_same _ x l Hf).
  destruct l as [|y l]; [congruence|]. cbn [length Nat.eqb negb].
  rewrite !andb_true_r.
  simpl in Hx. destruct Hx as [<-|[<-|[<-|[<-|[]]]]]; reflexivity.
Qed.

Lemma filter_keep_all {A : Type} (f : A -> bool) (l : list A) :
  Forall (fun a => f a = true) l -> filter f l = l.
Proof.
  induction 1 as [|a l Ha _ IH]; simpl; [reflexivity|]. rewrite Ha, IH. reflexivity.
Qed.




(** ** Rejected retries *)

Lemma gate_forwarded_nil (rule : list BaseMessage -> ToolCall -> GateVerdict)
  (msgs : list BaseMessage) (calls : list ToolCall) :
  (forall tc, exists f, rule msgs tc = Reject f) ->
  flat_map (fun cv => match snd cv with
                      | Forward c' => [c']
                      | Reject _ => []
                      end) (map (fun c => (c, rule msgs c)) calls) = [].
Proof.
  intros Hr. induction calls as [|a l IH]; [reflexivity|].
  simpl. destruct (Hr a) as [f Hf]. rewrite Hf. exact IH.
Qed.

Lemma prefix_app (s f : string) : String.prefix s (s ++ f) = true.
Proof.
  induction s as [|a s IH]; simpl.
  - destruct f; reflexivity.
  - destruct (Ascii.ascii_dec a a) as [_|n]; [exact IH | contradiction].
Qed.

Lemma gate_rejections_props (rule : list BaseMessage -> ToolCall -> GateVerdict)
  (msgs : list BaseMessage) (calls : list ToolCall) :
  (forall tc, exists f, rule msgs tc = Reject f) ->
  let w := flat_map (fun cv => match snd cv with
                               | Reject field =>
                                   [ToolMessage ("Validation failed: " ++ field)%string
                                                (tc_id (fst cv)) (tc_name (fst cv)) "success"]
                               | Forward _ => []
                               end) (map (fun c => (c, rule msgs c)) calls) in
  Forall (fun m => is_rejection m = true) w /\
  (forall tc, In tc calls -> In (tc_id tc) (answered_ids w)).
Proof.
  intros Hr w. subst w. induction calls as [|a l [IH1 IH2]]; simpl.
  - split; [constructor | tauto].
  - destruct (Hr a) as [f Hf]. rewrite Hf. simpl. split.
    + constructor; [exact (prefix_app "Validation failed: " f) | exact IH1].
    + intros tc [<-|Hin]; [left; reflexivity | right; apply IH2; exact Hin].
Qed.

Lemma gate_events_props node (rule : list BaseMessage -> ToolCall -> GateVerdict)
  (msgs : list BaseMessage) (calls : list ToolCall) :
  let ev := map (fun cv => match snd cv with
                           | Forward c' => GateApproved node c'
                           | Reject field => GateRejected node (fst cv) field
                           end) (map (fun c => (c, rule msgs c)) calls) in
  filter is_superstep ev = [] /\ (forall tc, ~ In (ToolInvoked tc) ev).
Proof.
  intros ev. subst ev. split.
  - apply filter_superstep_map. intros [c v]. destruct v; reflexivity.
  - intros tc Hin. apply in_map_iff in Hin as ([c v] & E & _).
    destruct v; discriminate.
Qed.

Lemma rejections_no_ai (w : list BaseMessage) :
  Forall (fun m => is_rejection m = true) w ->
  last_ai_message w = None /\ filter is_ai w = [].
Proof.
  induction 1 as [|m w Hm _ [IH1 IH2]]; [split; reflexivity|].
  destruct m; try discriminate Hm. simpl. rewrite IH1, IH2. split; reflexivity.
Qed.

Lemma filter_drop_all {A : Type} (f : A -> bool) (l : list A) :
  Forall (fun a => f a = false) l -> filter f l = [].
Proof. induction 1 as [|a l Ha _ IH]; simpl; [reflexivity|]. rewrite Ha. exact IH. Qed.

Section RetryGeneral.

Variable model : list BaseMessage -> BaseMessage.
Variable sys : string.
Variable reg : string -> option (list (string * string) -> Result string).
Variables rule1 rule2 : list BaseMessage -> ToolCall -> GateVerdict.

(** The Reasoner proposes, on every turn, only claim updates. *)
Hypothesis model_claims :
  forall h, exists c tcs,
    model (SystemMessage sys :: h) = AIMessage c (Some tcs) /\ tcs <> [] /\
    Forall (fun tc => tc_name tc = "create_or_update_claim") tcs.

(** The claim-detail gate rejects every action. *)
Hypothesis rule1_rejects : forall h tc, exists field, rule1 h tc = Reject field.

Lemma retry_gate_node (msgs : list BaseMessage) (calls : list ToolCall) :
  last_ai_message msgs = Some calls ->
  Forall (fun tc => tc_name tc = "create_or_update_claim") calls ->
  exists w ev, validateClaimDetail rule1 msgs = Ok (w, ev) /\
    Forall (fun m => is_rejection m = true) w /\
    (forall tc, In tc calls -> In (tc_id tc) (answered_ids w)) /\
    filter is_superstep ev = [] /\ (forall tc, ~ In (ToolInvoked tc) ev).
Proof.
  intros Hl Hn. unfold validateClaimDetail, gateNode. rewrite Hl. cbv zeta.
  rewrite (filter_keep_all _ calls).
  2:{ apply Forall_forall. intros tc Hin. rewrite Forall_forall in Hn.
      rewrite (Hn tc Hin). reflexivity. }
  rewrite (gate_forwarded_nil rule1 msgs calls (rule1_rejects msgs)).
  destruct (gate_rejections_props rule1 msgs calls (rule1_rejects msgs)) as [P1 P2].
  destruct (gate_events_props "prepare_claim_detail" rule1 msgs calls) as [P3 P4].
  do 2 eexists. split; [reflexivity|].
  rewrite app_nil_r. repeat split; assumption.
Qed.

Lemma retry_general n :
  forall h tr, exists suffix more,
    run model sys reg rule1 rule2 (3 * n) ["agent"] h tr =
      OutOfSteps (h ++ suffix) (tr ++ more) /\
    filter is_superstep more = concat (repeat retry_steps n) /\
    (forall tc, ~ In (ToolInvoked tc) more) /\
    length (filter is_ai suffix) = n /\
    Forall (fun m => is_ai m = true \/ is_rejection m = true) suffix.
Proof.
  induction n as [|n IH]; intros h tr.
  - exists [], []. rewrite !app_nil_r.
    split; [reflexivity | split; [reflexivity | split; [intros tc [] | split; [reflexivity | constructor]]]].
  - destruct (model_claims h) as (c & tcs & Hm & Hne & Hall).
    assert (Hr : Forall (fun y => y = "prepare_claim_detail") (map route_tool_call tcs)).
    { apply Forall_forall. intros y Hy. apply in_map_iff in Hy as (tc & <- & Hin).
      apply route_tool_call_eq_prepare. rewrite Forall_forall in Hall. auto. }
    assert (T1 : run_tasks model sys reg rule1 rule2 ["agent"] h =
                 Ok ([AIMessage c (Some tcs)], [], map route_tool_call tcs ++ [])).
    { cbn -[shouldContinue]. unfold callModel. rewrite Hm.
      destruct tcs as [|tc tcs']; [congruence|].
      rewrite shouldContinue_ai_nonempty. reflexivity. }
    assert (S1 : schedule (map route_tool_call tcs ++ []) = ["prepare_claim_detail"]).
    { rewrite app_nil_r. apply schedule_all_same; [simpl; tauto | exact Hr |].
      destruct tcs; [congruence | discriminate]. }
    assert (Hl : last_ai_message (h ++ [AIMessage c (Some tcs)]) = Some tcs).
    { rewrite last_ai_message_app. reflexivity. }
    destruct (retry_gate_node _ _ Hl Hall) as (w & ev & Hg & Wr & Wa & Es & Ei).
    destruct (rejections_no_ai w Wr) as [Wl Wf].
    assert (T2 : run_tasks model sys reg rule1 rule2 ["prepare_claim_detail"]
                   (h ++ [AIMessage c (Some tcs)]) = Ok (w ++ [], ev ++ [], ["tools"] ++ [])).
    { cbn -[validateClaimDetail]. rewrite Hg. reflexivity. }
    assert (T3 : run_tasks model sys reg rule1 rule2 ["tools"]
                   ((h ++ [AIMessage c (Some tcs)]) ++ w ++ []) = Ok ([], [], ["agent"] ++ [])).
    { cbn -[toolNode]. unfold toolNode.
      rewrite app_nil_r, !last_ai_message_app, Wl. cbn [last_ai_message].
      rewrite filter_drop_all; [reflexivity|].
      apply Forall_forall. intros tc Hin.
      apply negb_false_iff. apply existsb_exists. exists (tc_id tc).
      split; [|apply String.eqb_refl].
      rewrite !answered_ids_app. apply in_or_app. right. apply Wa. exact Hin. }
    replace (3 * S n) with (S (S (S (3 * n)))) by lia.
    rewrite run_S, T1, S1, run_S, T2.
    replace (schedule (["tools"] ++ [])) with ["tools"] by reflexivity.
    rewrite run_S, T3.
    replace (schedule (["agent"] ++ [])) with ["agent"] by reflexivity.
    rewrite !app_nil_r.
    destruct (IH ((h ++ [AIMessage c (Some tcs)]) ++ w)
                 (((tr ++ [Superstep ["agent"]]) ++ Superstep ["prepare_claim_detail"] :: ev)
                  ++ [Superstep ["tools"]])) as (suffix & more & E & M1 & M2 & M3 & M4).
    exists (AIMessage c (Some tcs) :: w ++ suffix),
           (Superstep ["agent"] :: Superstep ["prepare_claim_detail"] :: ev ++
            Superstep ["tools"] :: more).
    rewrite E. split; [|split; [|split; [|split]]].
    + f_equal; rewrite <- !app_assoc; reflexivity.
    + simpl. rewrite filter_app, Es. simpl. rewrite M1. reflexivity.
    + intros tc Hin. simpl in Hin.
      destruct Hin as [Hin|[Hin|Hin]]; try discriminate.
      apply in_app_or in Hin as [Hin|[Hin|Hin]]; [exact (Ei tc Hin)|discriminate|].
      exact (M2 tc Hin).
    + change (filter is_ai (AIMessage c (Some tcs) :: w ++ suffix))
        with (AIMessage c (Some tcs) :: filter is_ai (w ++ suffix)).
      rewrite filter_app, Wf. simpl. rewrite M3. reflexivity.
    + constructor; [left; reflexivity|].
      apply Forall_app. split; [|exact M4].
      eapply Forall_impl; [|exact Wr]. intros m Hm'. right. exact Hm'.
Qed.

End RetryGeneral.

(** C7 (amended): every run executes at most [recursionLimit] = 15
    supersteps; a run that would need more stops with the engine's
    recursion-limit error.  The limit counts supersteps, not Reasoner
    turns: when the Reasoner proposes only [create_or_update_claim]
    actions on every turn and the claim-detail gate rejects every action,
    each retry takes exactly the three supersteps [agent],
    [prepare_claim_detail], [tools], no tool executor runs, and the request
    fails with the recursion-limit error after exactly 5 Reasoner turns,
    the history gaining only those 5 turns and their rejection messages. *)
Theorem run_bounded_by_recursion_limit :
  (forall model sys reg rule1 rule2 (store : Store) message,
     count_supersteps
       (trace_of (run model sys reg rule1 rule2 recursionLimit ["agent"]
                      (store config_thread_id ++ [HumanMessage message]) []))
     <= recursionLimit) /\
  (forall model sys reg rule1 rule2 (store : Store) message,
     (forall h, exists c tcs,
        model (SystemMessage sys :: h) = AIMessage c (Some tcs) /\ tcs <> [] /\
        Forall (fun tc => tc_name tc = "create_or_update_claim") tcs) ->
     (forall h tc, exists field, rule1 h tc = Reject field) ->
     exists suffix more,
       run model sys reg rule1 rule2 recursionLimit ["agent"]
           (store config_thread_id ++ [HumanMessage message]) [] =
         OutOfSteps (store config_thread_id ++ HumanMessage message :: suffix) more /\
       filter is_superstep more = concat (repeat retry_steps 5) /\
       (forall tc, ~ In (ToolInvoked tc) more) /\
       length (filter is_ai suffix) = 5 /\
       Forall (fun m => is_ai m = true \/ is_rejection m = true) suffix /\
       snd (chat model sys reg rule1 rule2 store message) =
         Throw "GraphRecursionError: Recursion limit of 15 reached").
Proof.
  split.
  - intros model sys reg rule1 rule2 store message.
    apply (run_supersteps_bounded model sys reg rule1 rule2 recursionLimit).
  - intros model sys reg rule1 rule2 store message Hm Hr.
    destruct (retry_general model sys reg rule1 rule2 Hm Hr 5
                (store config_thread_id ++ [HumanMessage message]) [])
      as (suffix & more & E & M1 & M2 & M3 & M4).
    change (3 * 5) with recursionLimit in E.
    exists suffix, more. rewrite E. rewrite <- app_assoc.
    repeat split; try assumption.
    unfold chat. rewrite E. reflexivity.
Qed.

Lemma run_bounded_by_recursion_limit_witness :
  ((forall h, exists c tcs,
      model_retry (SystemMessage "You are a claims assistant." :: h) = AIMessage c (Some tcs) /\
      tcs <> [] /\ Forall (fun tc => tc_name tc = "create_or_update_claim") tcs) /\
   (forall h tc, exists field, reject_all h tc = Reject field)) /\
  snd (chat model_retry "You are a claims assistant." demo_registry reject_all accept_all
            empty_store "update claim 123") =
    Throw "GraphRecursionError: Recursion limit of 15 reached".
Proof.
  assert (H1 : forall h, exists c tcs,
      model_retry (SystemMessage "You are a claims assistant." :: h) = AIMessage c (Some tcs) /\
      tcs <> [] /\ Forall (fun tc => tc_name tc = "create_or_update_claim") tcs).
  { intros h. exists "", [claim_call]. split; [reflexivity | split; [discriminate | ]].
    constructor; [reflexivity | constructor]. }
  assert (H2 : forall h tc, exists field, reject_all h tc = Reject field).
  { intros h tc. exists "claimant identity". reflexivity. }
  split; [split; assumption |].
  destruct (proj2 run_bounded_by_recursion_limit model_retry "You are a claims assistant."
              demo_registry reject_all accept_all empty_store "update claim 123" H1 H2)
    as (suffix & more & _ & _ & _ & _ & _ & E).
  exact E.
Defined.
